(** * terraform_ci: plan parser, action selector, job runner, comment renderer,
      environment setup and the path and newline helpers, embedded from
      [src/terraform_ci/__init__.py]. *)

From Stdlib Require Import ZArith NArith Lia Ascii String.
From Stdlib.Strings Require Import Byte.
From stdpp Require Import base list gmap.

Local Open Scope Z_scope.

(** ** Exceptions and results

    Every Python call either returns a value or raises; the embedding threads
    that through a small error monad. *)

Inductive exn : Set :=
| AttributeError
| IndexError
| ValueError
| TypeError
| KeyError
| UnicodeDecodeError.

#[global] Instance exn_eq_dec : EqDecision exn.
Proof. solve_decision. Defined.

Inductive result (A : Type) : Type :=
| Ok (a : A)
| Raise (e : exn).

Arguments Ok {A} a.
Arguments Raise {A} e.

Definition bind {A B} (r : result A) (k : A -> result B) : result B :=
  match r with
  | Ok a => k a
  | Raise e => Raise e
  end.

Notation "'let*' x ':=' r 'in' k" := (bind r (fun x => k))
  (at level 10, x name, r at level 100, k at level 200).

(** [try: body except e: handler] *)
Definition try_except {A} (body : result A) (e : exn) (handler : result A) : result A :=
  match body with
  | Ok a => Ok a
  | Raise e' => if decide (e' = e) then handler else Raise e'
  end.

Definition returns {A} (r : result A) : Prop := exists a, r = Ok a.

(** ** Python [str]: a sequence of Unicode code points *)

Abbreviation char := N (only parsing).
Abbreviation str := (list N) (only parsing).

Definition lit (s : string) : str := map N_of_ascii (list_ascii_of_string s).
Arguments lit s%_string : simpl never.

Definition NL : str := [10%N].

Definition str_eqb (a b : str) : bool := bool_decide (a = b).

(** [_PyUnicode_IsLinebreak] *)
Definition is_linebreak (c : char) : bool :=
  ((10 <=? c) && (c <=? 13) || (28 <=? c) && (c <=? 30) || (c =? 133)
   || (c =? 8232) || (c =? 8233))%N.

(** [_PyUnicode_IsWhitespace] *)
Definition is_space (c : char) : bool :=
  ((9 <=? c) && (c <=? 13) || (28 <=? c) && (c <=? 32) || (c =? 133) || (c =? 160)
   || (c =? 5760) || (8192 <=? c) && (c <=? 8202) || (c =? 8232) || (c =? 8233)
   || (c =? 8239) || (c =? 8287) || (c =? 12288))%N.

(** [s.splitlines()]: [cur] is the line being read, most recent character
    first.  A CR LF pair is one boundary; a boundary at the very end opens no
    further line. *)
Fixpoint splitlines_from (cur : str) (s : str) : list str :=
  match s with
  | [] => match cur with [] => [] | _ => [rev cur] end
  | c :: rest =>
      if is_linebreak c then
        rev cur ::
          (if (c =? 13)%N then
             match rest with
             | c' :: rest' =>
                 if (c' =? 10)%N then splitlines_from [] rest'
                 else splitlines_from [] rest
             | [] => splitlines_from [] rest
             end
           else splitlines_from [] rest)
      else splitlines_from (c :: cur) rest
  end.

Definition splitlines (s : str) : list str := splitlines_from [] s.

(** [s.split()]: maximal runs of non-whitespace characters. *)
Fixpoint split_from (cur : str) (s : str) : list str :=
  match s with
  | [] => match cur with [] => [] | _ => [rev cur] end
  | c :: rest =>
      if is_space c then
        match cur with
        | [] => split_from [] rest
        | _ => rev cur :: split_from [] rest
        end
      else split_from (c :: cur) rest
  end.

Definition split (s : str) : list str := split_from [] s.

(** [s.startswith(prefix)] *)
Fixpoint startswith (s prefix : str) {struct prefix} : bool :=
  match prefix with
  | [] => true
  | p :: prefix' =>
      match s with
      | c :: s' => (c =? p)%N && startswith s' prefix'
      | [] => false
      end
  end.

Arguments startswith : simpl never.

(** [sep.join(parts)] *)
Fixpoint join (sep : str) (parts : list str) : str :=
  match parts with
  | [] => []
  | [p] => p
  | p :: ps => p ++ sep ++ join sep ps
  end.

(** [l[i]] for a non-negative index. *)
Definition getitem {A} (l : list A) (i : nat) : result A :=
  match l !! i with
  | Some a => Ok a
  | None => Raise IndexError
  end.

(** ** [str(n)] and ['%d' % n] for an integer *)

(** [digits_from fuel n acc] puts the decimal digits of [n] in front of
    [acc], least significant digit first; [log2 n] turns are enough. *)
Fixpoint digits_from (fuel : nat) (n : N) (acc : str) : str :=
  let acc' := (48 + n mod 10)%N :: acc in
  match fuel with
  | O => acc'
  | S fuel' => if (n <? 10)%N then acc' else digits_from fuel' (n / 10)%N acc'
  end.

Definition str_of_N (n : N) : str := digits_from (N.to_nat (N.log2 n)) n [].

Arguments str_of_N : simpl never.

Definition str_of_Z (z : Z) : str :=
  match z with
  | Zneg p => 45%N :: str_of_N (Npos p)
  | _ => str_of_N (Z.to_N z)
  end.

(** ** Python objects a caller may pass where a [str] is expected *)

Inductive pyobj : Type :=
| PyNone
| PyStr (s : str).

#[global] Instance pyobj_eq_dec : EqDecision pyobj.
Proof. solve_decision. Defined.

(** [o.splitlines()]: [None] has no such attribute. *)
Definition obj_splitlines (o : pyobj) : result (list str) :=
  match o with
  | PyStr s => Ok (splitlines s)
  | PyNone => Raise AttributeError
  end.

(** [a == b] *)
Definition obj_eqb (a b : pyobj) : bool := bool_decide (a = b).

(** ** [bytes] and [bytes.decode('utf-8')] *)

Definition bytes := list Byte.byte.

Definition in_range (lo hi b : N) : bool := ((lo <=? b) && (b <=? hi))%N.

(** The strict decoder: shortest forms only, no surrogates, nothing above
    U+10FFFF.  Works on the byte values. *)
Fixpoint utf8_decode (bs : list N) : result str :=
  match bs with
  | [] => Ok []
  | b0 :: r0 =>
      if (b0 <? 128)%N then
        let* t := utf8_decode r0 in Ok (b0 :: t)
      else if in_range 194 223 b0 then
        match r0 with
        | b1 :: r1 =>
            if in_range 128 191 b1 then
              let* t := utf8_decode r1 in
              Ok (N.lor (N.shiftl (N.land b0 31) 6) (N.land b1 63) :: t)
            else Raise UnicodeDecodeError
        | _ => Raise UnicodeDecodeError
        end
      else if in_range 224 239 b0 then
        match r0 with
        | b1 :: b2 :: r2 =>
            if in_range (if (b0 =? 224)%N then 160 else 128)
                        (if (b0 =? 237)%N then 159 else 191) b1
               && in_range 128 191 b2 then
              let* t := utf8_decode r2 in
              Ok (N.lor (N.shiftl (N.land b0 15) 12)
                    (N.lor (N.shiftl (N.land b1 63) 6) (N.land b2 63)) :: t)
            else Raise UnicodeDecodeError
        | _ => Raise UnicodeDecodeError
        end
      else if in_range 240 244 b0 then
        match r0 with
        | b1 :: b2 :: b3 :: r3 =>
            if in_range (if (b0 =? 240)%N then 144 else 128)
                        (if (b0 =? 244)%N then 143 else 191) b1
               && in_range 128 191 b2 && in_range 128 191 b3 then
              let* t := utf8_decode r3 in
              Ok (N.lor (N.shiftl (N.land b0 7) 18)
                    (N.lor (N.shiftl (N.land b1 63) 12)
                       (N.lor (N.shiftl (N.land b2 63) 6) (N.land b3 63))) :: t)
            else Raise UnicodeDecodeError
        | _ => Raise UnicodeDecodeError
        end
      else Raise UnicodeDecodeError
  end.

Definition bytes_decode (b : bytes) : result str := utf8_decode (map Byte.to_N b).

(** [s.encode()] of an ASCII literal, to write byte strings down. *)
Definition blit (s : string) : bytes := list_byte_of_string s.
Arguments blit s%_string : simpl never.

(** ** [dict] with [str] keys, in insertion order *)

Definition dict (V : Type) : Type := list (str * V).

Definition keys {V} (d : dict V) : list str := map fst d.


Fixpoint dict_lookup {V} (d : dict V) (k : str) : option V :=
  match d with
  | [] => None
  | (k', v) :: d' => if decide (k' = k) then Some v else dict_lookup d' k
  end.

(** [d[k]] *)
Definition dict_getitem {V} (d : dict V) (k : str) : result V :=
  match dict_lookup d k with
  | Some v => Ok v
  | None => Raise KeyError
  end.

(** ** The status record of one module *)

Inductive blob : Type :=
| Bytes (b : bytes)
| Text (s : str).

Record status_record : Type := {
  success : bool;
  stderr : blob;
  stdout : blob;
  add : option Z;
  change : option Z;
  destroy : option Z
}.

(** ** [render_comment] *)

Inductive column : Set := Add | Change | Destroy.

(** [status[k][local_change]] *)
Definition count (r : status_record) (local_change : column) : option Z :=
  match local_change with
  | Add => add r
  | Change => change r
  | Destroy => destroy r
  end.

Definition map_change (c : column) : str :=
  match c with
  | Add => lit "![#c5f015](https://placehold.it/15/c5f015/000000?text=+) "
  | Change => lit "![#1589F0](https://placehold.it/15/1589F0/000000?text=+) "
  | Destroy => lit "![#f03c15](https://placehold.it/15/f03c15/000000?text=+) "
  end.

Definition tag_map (ok : bool) : str :=
  if ok then lit "![#c5f015](https://placehold.it/15/c5f015/000000?text=+)"
  else lit "![#f03c15](https://placehold.it/15/f03c15/000000?text=+)".

(** [str(b)] *)
Definition str_of_bool (b : bool) : str := if b then lit "True" else lit "False".

(** [v > 0]: ordering [None] against an [int] is a [TypeError]. *)
Definition gt_zero (v : option Z) : result bool :=
  match v with
  | Some n => Ok (0 <? n)
  | None => Raise TypeError
  end.

Fixpoint flag_loop (status : dict status_record) (local_change : column)
    (ks : list str) : result str :=
  match ks with
  | [] => Ok []
  | k :: ks' =>
      let* r := dict_getitem status k in
      let* positive := gt_zero (count r local_change) in
      if positive then Ok (map_change local_change)
      else flag_loop status local_change ks'
  end.

Definition flag (status : dict status_record) (local_change : column) : result str :=
  flag_loop status local_change (keys status).

(** [changes[change]] as the row shows it: ['**%d**' % n] when positive, the
    integer itself, formatted by [str.format], otherwise. *)
Definition change_cell (v : option Z) : result str :=
  let* positive := gt_zero v in
  match v with
  | Some n => Ok (if positive then lit "**" ++ str_of_Z n ++ lit "**" else str_of_Z n)
  | None => Raise TypeError
  end.

Definition render_row (key : str) (r : status_record) : result str :=
  let* a := change_cell (add r) in
  let* c := change_cell (change r) in
  let* d := change_cell (destroy r) in
  Ok (lit "**" ++ key ++ lit "** | " ++ tag_map (success r)
      ++ lit " `" ++ str_of_bool (success r) ++ lit "` "
      ++ lit "| " ++ a ++ lit " | " ++ c ++ lit " | " ++ d).

Fixpoint row_loop (status : dict status_record) (ks : list str) (comment : str)
    : result str :=
  match ks with
  | [] => Ok comment
  | key :: ks' =>
      let* r := dict_getitem status key in
      let* line := render_row key r in
      row_loop status ks' (comment ++ line ++ NL)
  end.

(** [outs[out]]: bytes are decoded, text is taken as it is. *)
Definition blob_text (b : blob) : result str :=
  match b with
  | Bytes bs => bytes_decode bs
  | Text s => Ok s
  end.

Definition fenced (s : str) : str :=
  match s with
  | [] => lit "_no output_"
  | _ :: _ => lit "```" ++ s ++ lit "```"
  end.

Definition render_section (key : str) (r : status_record) : result str :=
  let* out := blob_text (stdout r) in
  let* err := blob_text (stderr r) in
  Ok (NL ++ lit "# **" ++ key ++ lit "**" ++ NL
      ++ NL ++ lit "## stdout" ++ NL
      ++ NL ++ fenced out ++ NL
      ++ NL ++ lit "## stderr" ++ NL
      ++ NL ++ fenced err ++ NL).

Fixpoint section_loop (status : dict status_record) (ks : list str) (comment : str)
    : result str :=
  match ks with
  | [] => Ok comment
  | key :: ks' =>
      let* r := dict_getitem status key in
      let* line := render_section key r in
      section_loop status ks' (comment ++ line)
  end.

Definition SEPARATOR : str := lit "--- | --- | ---: | ---: | ---:".

Definition render_comment (status : dict status_record) : result str :=
  let* fa := flag status Add in
  let* fc := flag status Change in
  let* fd := flag status Destroy in
  let comment :=
    join (lit " | ")
      [lit "Module"; lit "Success"; fa ++ lit "Add"; fc ++ lit "Change";
       fd ++ lit "Destroy"] in
  let comment := comment ++ NL ++ SEPARATOR ++ NL in
  let* comment := row_loop status (keys status) comment in
  let* comment := section_loop status (keys status) comment in
  Ok comment.

(** ** [get_action] *)

Definition get_action (branch : pyobj) (pull_request : bool) : str :=
  if obj_eqb branch (PyStr (lit "master")) && negb pull_request
  then lit "apply"
  else lit "plan".


Section Interpreter.

(** [Py_UNICODE_TODECIMAL] on the code points above ASCII: the decimal digit
    a character stands for, from the Unicode database the interpreter was
    built with.  [int] consults it for non-ASCII characters only. *)
Variable to_decimal : char -> option N.

(** ** [int(s)] in base 10 *)

(** [_PyUnicode_TransformDecimalAndSpaceToASCII], one character: ASCII is
    kept, other whitespace becomes a space, other decimal digits their ASCII
    digit, and anything else a question mark, at which the parse fails. *)
Definition ascii_image (c : char) : char :=
  if (c <? 128)%N then c
  else if is_space c then 32%N
  else match to_decimal c with
       | Some d => (48 + d)%N
       | None => 63%N
       end.

(** [Py_ISSPACE] *)
Definition c_isspace (c : char) : bool := ((9 <=? c) && (c <=? 13) || (c =? 32))%N.

Definition is_digit (c : char) : bool := ((48 <=? c) && (c <=? 57))%N.

Fixpoint skip_spaces (s : str) : str :=
  match s with
  | c :: rest => if c_isspace c then skip_spaces rest else s
  | [] => []
  end.

(** The digit scan of [PyLong_FromString]: digits, single underscores between
    them.  [prev] is the character before; [None] is the jump to [onError]. *)
Fixpoint scan_digits (acc : N) (prev : char) (s : str) : option (N * str) :=
  match s with
  | c :: rest =>
      if is_digit c then scan_digits (10 * acc + (c - 48))%N c rest
      else if (c =? 95)%N then
        if (prev =? 95)%N then None else scan_digits acc c rest
      else if (prev =? 95)%N then None else Some (acc, s)
  | [] => if (prev =? 95)%N then None else Some (acc, [])
  end.

(** [PyLong_FromString] in base 10: optional whitespace, an optional sign,
    the digits, optional whitespace, and nothing else.  The interpreter's
    configurable cap on the number of digits is left out. *)
Definition py_int (s : str) : result Z :=
  let a := skip_spaces (map ascii_image s) in
  let '(negative, body) :=
    match a with
    | c :: rest =>
        if (c =? 43)%N then (false, rest)
        else if (c =? 45)%N then (true, rest)
        else (false, a)
    | [] => (false, a)
    end in
  match body with
  | c :: _ =>
      if is_digit c then
        match scan_digits 0%N 0%N body with
        | Some (n, rest) =>
            match skip_spaces rest with
            | [] => Ok (if negative then - Z.of_N n else Z.of_N n)
            | _ :: _ => Raise ValueError
            end
        | None => Raise ValueError
        end
      else Raise ValueError
  | [] => Raise ValueError
  end.

(** ** [parse_plan] *)

Definition PLAN_PREFIX : str := lit "Plan: ".
Definition NO_CHANGES : str := lit "No changes. Infrastructure is up-to-date.".

(** The tuple [(add, change, destroy)]; [None] is Python's [None]. *)
Definition counts : Type := option Z * option Z * option Z.

(** The three assignments made on a line that starts with ["Plan: "]. *)
Definition plan_counts (line : str) : result (Z * Z * Z) :=
  let split_line := split line in
  let* tok1 := getitem split_line 1 in
  let* add := py_int tok1 in
  let* tok4 := getitem split_line 4 in
  let* change := py_int tok4 in
  let* tok7 := getitem split_line 7 in
  let* destroy := py_int tok7 in
  Ok (add, change, destroy).

(** The [for line in output.splitlines()] loop, with the three locals. *)
Fixpoint parse_lines (lines : list str) (add change destroy : option Z) : result counts :=
  match lines with
  | [] => Ok (add, change, destroy)
  | line :: rest =>
      if startswith line PLAN_PREFIX then
        let* acd := plan_counts line in
        let '(a, c, d) := acd in
        parse_lines rest (Some a) (Some c) (Some d)
      else if str_eqb line NO_CHANGES then Ok (Some 0, Some 0, Some 0)
      else parse_lines rest add change destroy
  end.

(** Inside the [try], only [output.splitlines()] can raise [AttributeError],
    and it does so before any local is assigned: the handler's [pass] then
    falls through to [return add, change, destroy] with all three [None]. *)
Definition parse_plan (output : pyobj) : result counts :=
  try_except
    (let* lines := obj_splitlines output in
     parse_lines lines None None None)
    AttributeError
    (Ok (None, None, None)).


(** ** [execute] and [run_job] *)

(** [Popen(cmd, stdout=PIPE, stderr=PIPE)] followed by [communicate()]: what
    the operating system answers to a command, its return code and the two
    captured streams. *)
Variable popen : list str -> result (Z * bytes * bytes).

Definition execute (cmd : list str) : result (Z * bytes * bytes) :=
  let* r := popen cmd in
  let '(returncode, cout, cerr) := r in
  Ok (returncode, cout, cerr).

Definition run_job (path action : str) : result status_record :=
  let* r := execute [lit "make"; lit "-C"; path; action] in
  let '(returncode, cout, cerr) := r in
  let* text := bytes_decode cout in
  let* parse_tree := parse_plan (PyStr text) in
  let '(a, c, d) := parse_tree in
  Ok {| success := returncode =? 0;
        stderr := Bytes cerr;
        stdout := Bytes cout;
        add := a;
        change := c;
        destroy := d |}.

End Interpreter.

(** ** [setup_environment] *)

(** [s.upper()], exact on ASCII text, which is all the code applies it to. *)
Definition upper (s : str) : str :=
  map (fun c : char => if in_range 97 122 c then (c - 32)%N else c) s.

Definition common_variables : list str :=
  [lit "AWS_ACCESS_KEY_ID"; lit "AWS_SECRET_ACCESS_KEY"; lit "GITHUB_TOKEN"].

(** One turn of the first loop: [environ[variable] = tf_vars['TF_VAR_' + ...]]
    under [except KeyError: pass]. *)
Definition promote (tf_vars : dict str) (environ : gmap str str) (variable : str)
    : result (gmap str str) :=
  try_except
    (let* value := dict_getitem tf_vars (lit "TF_VAR_" ++ upper variable) in
     Ok (<[variable := value]> environ))
    KeyError
    (Ok environ).

Fixpoint promote_loop (tf_vars : dict str) (vars : list str) (environ : gmap str str)
    : result (gmap str str) :=
  match vars with
  | [] => Ok environ
  | variable :: vars' =>
      let* environ' := promote tf_vars environ variable in
      promote_loop tf_vars vars' environ'
  end.

(** [for key, value in tf_vars.items(): environ[key] = value] *)
Definition copy_all (tf_vars : dict str) (environ : gmap str str) : gmap str str :=
  fold_left (fun env kv => <[kv.1 := kv.2]> env) tf_vars environ.

(** [tf_vars] is the mapping [json.loads] returned for the file. *)
Definition setup_environment (tf_vars : dict str) (environ : gmap str str)
    : result (gmap str str) :=
  let* environ' := promote_loop tf_vars common_variables environ in
  Ok (copy_all tf_vars environ').


(** ** Vocabulary of the specification *)

(** A line whose whitespace-separated tokens 1, 4 and 7 exist and read as
    integers. *)
Definition numeric_tokens (to_decimal : char -> option N) (line : str) : Prop :=
  exists t1 t4 t7,
    split line !! 1%nat = Some t1
    /\ split line !! 4%nat = Some t4
    /\ split line !! 7%nat = Some t7
    /\ returns (py_int to_decimal t1)
    /\ returns (py_int to_decimal t4)
    /\ returns (py_int to_decimal t7).


(** The well-formed line ["Plan: X to add, Y to change, Z to destroy."] *)
Definition plan_line (x y z : N) : str :=
  lit "Plan: " ++ str_of_N x ++ lit " to add, " ++ str_of_N y
  ++ lit " to change, " ++ str_of_N z ++ lit " to destroy.".



(** Every module has integers for its three counts. *)
Definition integer_counts (status : dict status_record) : Prop :=
  forall k r col, dict_lookup status k = Some r -> exists n, count r col = Some n.

(** A count as the specification wants it shown: bolded exactly when it is
    greater than zero. *)
Definition shown_count (n : Z) : str :=
  if 0 <? n then lit "**" ++ str_of_Z n ++ lit "**" else str_of_Z n.

(** [row] is the table row of module [k]. *)
Definition is_row (status : dict status_record) (k : str) (row : str) : Prop :=
  exists r a c d,
    dict_lookup status k = Some r
    /\ add r = Some a /\ change r = Some c /\ destroy r = Some d
    /\ row = lit "**" ++ k ++ lit "** | " ++ tag_map (success r)
             ++ lit " `" ++ str_of_bool (success r) ++ lit "` | "
             ++ shown_count a ++ lit " | " ++ shown_count c
             ++ lit " | " ++ shown_count d.

(** The header row, given the three flags. *)
Definition header (fa fc fd : str) : str :=
  lit "Module | Success | " ++ fa ++ lit "Add | " ++ fc ++ lit "Change | "
  ++ fd ++ lit "Destroy".

(** Every module succeeded with nothing to add, change or destroy. *)
Definition all_zero (status : dict status_record) : Prop :=
  forall k r,
    dict_lookup status k = Some r ->
    success r = true /\ add r = Some 0 /\ change r = Some 0 /\ destroy r = Some 0.

(** ** Concrete inputs *)

(** A Unicode database without decimal digits above ASCII, to run the parser
    on ASCII text. *)
Definition ascii_digits_only : char -> option N := fun _ => None.

(** A Unicode database that knows the fullwidth digits U+FF10 to U+FF19. *)
Definition fullwidth_digits (c : char) : option N :=
  if in_range 65296 65305 c then Some (c - 65296)%N else None.

(** A [make] that exits with status 2 after writing a byte that is not UTF-8
    to its standard output. *)
Definition popen_garbled (cmd : list str) : result (Z * bytes * bytes) :=
  Ok (2, [xff], blit "make: *** [plan] Error 1").

(** A [make] that exits with status 1 after printing a plan. *)
Definition popen_plan (cmd : list str) : result (Z * bytes * bytes) :=
  Ok (1, blit "Plan: 4 to add, 11 to change, 7 to destroy.", blit "warning").

(** Status mappings of one module, as [run_job] builds them. *)
Definition status_all_zero : dict status_record :=
  [(lit "web", {| success := true; stderr := Bytes []; stdout := Bytes [];
                  add := Some 0; change := Some 0; destroy := Some 0 |})].

Definition status_add_four : dict status_record :=
  [(lit "web", {| success := true; stderr := Bytes []; stdout := Bytes [];
                  add := Some 4; change := Some 0; destroy := Some 0 |})].




(** ** [replace] and [split(sep)] of [str] and [bytes] *)

#[global] Instance byte_eq_decision : EqDecision Byte.byte := Byte.byte_eq_dec.

(** [prefix] is the start of [s]. *)
Fixpoint has_prefix {A} `{EqDecision A} (s prefix : list A) {struct prefix} : bool :=
  match prefix with
  | [] => true
  | p :: prefix' =>
      match s with
      | c :: s' => bool_decide (c = p) && has_prefix s' prefix'
      | [] => false
      end
  end.

(** [s.replace(old, new)] for a non-empty [old]: occurrences are taken from
    left to right and do not overlap.  [skip] counts the characters of a
    matched occurrence still to pass over. *)
Fixpoint replace_from {A} `{EqDecision A} (old new : list A) (skip : nat) (s : list A)
    : list A :=
  match s with
  | [] => []
  | c :: rest =>
      match skip with
      | S skip' => replace_from old new skip' rest
      | O =>
          if has_prefix s old
          then new ++ replace_from old new (length old - 1) rest
          else c :: replace_from old new 0 rest
      end
  end.

Definition str_replace (s old new : str) : str := replace_from old new 0 s.

Definition bytes_replace (b old new : bytes) : bytes := replace_from old new 0 b.

(** [s.split(sep=sep)] for a non-empty [sep]: every occurrence separates,
    and empty pieces are kept. *)
Fixpoint split_sep_from (sep : str) (skip : nat) (cur : str) (s : str) : list str :=
  match s with
  | [] => [rev cur]
  | c :: rest =>
      match skip with
      | S skip' => split_sep_from sep skip' cur rest
      | O =>
          if has_prefix s sep
          then rev cur :: split_sep_from sep (length sep - 1) [] rest
          else split_sep_from sep 0 (c :: cur) rest
      end
  end.

Definition split_sep (s sep : str) : list str := split_sep_from sep 0 [] s.

(** [l[-1]] *)
Definition getitem_last {A} (l : list A) : result A :=
  match last l with
  | Some a => Ok a
  | None => Raise IndexError
  end.

(** ** [module_name_from_path] *)

(** [os.path.sep] of [posixpath], the platform the comparison with ['/']
    is written for. *)
Definition OS_SEP : str := lit "/".

Section OsPath.

(** [os.path.abspath]: the answer depends on the working directory of the
    process. *)
Variable abspath : str -> str.

Definition module_name_from_path (path : str) : result str :=
  let abspath_of_path := abspath path in
  if str_eqb abspath_of_path (lit "/") then Ok (lit "root")
  else getitem_last (split_sep abspath_of_path OS_SEP).

End OsPath.

(** ** [convert_to_newlines] *)

(** The two bytes of [b'\\n'], a backslash and the letter n. *)
Definition BACKSLASH_N : bytes := [x5c; x6e].

Definition convert_to_newlines (text : bytes) : result str :=
  bytes_decode (bytes_replace text BACKSLASH_N [x0a]).

(** ** More vocabulary of the specification *)

(** The characters backslash and n, next to each other. *)
Definition ESCAPED_NEWLINE : str := [92; 110]%N.

(** [s] contains [part] as a substring. *)
Definition contains (s part : str) : Prop := exists before after, s = before ++ part ++ after.

(** A blob that renders: text, or bytes that are valid UTF-8. *)
Definition decodable (b : blob) : Prop := returns (blob_text b).



(** The record with its outputs held as text wherever they decode. *)
Definition as_text (b : blob) : blob :=
  match blob_text b with
  | Ok s => Text s
  | Raise _ => b
  end.

Definition textual (r : status_record) : status_record :=
  {| success := success r; stderr := as_text (stderr r); stdout := as_text (stdout r);
     add := add r; change := change r; destroy := destroy r |}.

Definition textual_status (status : dict status_record) : dict status_record :=
  map (fun kr => (kr.1, textual kr.2)) status.



(** [os.path.abspath] on paths that are absolute and normal already. *)
Definition abspath_id (path : str) : str := path.


(** * Properties *)

(** ** The error monad *)

Lemma returns_Ok {A} (a : A) : returns (Ok a).
Proof. by exists a. Qed.


Lemma bind_Ok_inv {A B} (r : result A) (k : A -> result B) (b : B) :
  bind r k = Ok b -> exists a, r = Ok a /\ k a = Ok b.
Proof. destruct r as [a|e]; simpl; [eauto | discriminate]. Qed.

Lemma bind_Raise_inv {A B} (r : result A) (k : A -> result B) (e : exn) :
  bind r k = Raise e -> r = Raise e \/ exists a, r = Ok a /\ k a = Raise e.
Proof. destruct r as [a|e']; simpl; [eauto | intros [= ->]; by left]. Qed.

Lemma returns_bind {A B} (r : result A) (k : A -> result B) :
  returns (bind r k) <-> exists a, r = Ok a /\ returns (k a).
Proof.
  split.
  - intros [b Hb]. apply bind_Ok_inv in Hb as (a & -> & Hk). exists a. split; [done | by exists b].
  - intros (a & -> & Hk). exact Hk.
Qed.

(** ** The runtime on concrete values *)

Example splitlines_boundaries :
  splitlines (lit "ab" ++ [13; 10]%N ++ lit "cd" ++ NL ++ NL ++ lit "e" ++ [8232%N])
  = [lit "ab"; lit "cd"; []; lit "e"].
Proof. reflexivity. Qed.

Example split_runs :
  split (lit "  Plan:   4 to" ++ [9; 160]%N ++ lit "add, ") = [lit "Plan:"; lit "4"; lit "to"; lit "add,"].
Proof. reflexivity. Qed.

Example py_int_literals :
  py_int ascii_digits_only (lit "1_000") = Ok 1000
  /\ py_int ascii_digits_only (lit "-07") = Ok (-7)
  /\ py_int ascii_digits_only (lit " +12 ") = Ok 12
  /\ py_int ascii_digits_only (lit "1__0") = Raise ValueError
  /\ py_int ascii_digits_only (lit "12,") = Raise ValueError
  /\ py_int ascii_digits_only (lit "-") = Raise ValueError
  /\ py_int ascii_digits_only [] = Raise ValueError
  /\ py_int fullwidth_digits [65300; 65298]%N = Ok 42
  /\ py_int ascii_digits_only [65300; 65298]%N = Raise ValueError.
Proof. repeat split; reflexivity. Qed.

Example str_of_Z_literals :
  str_of_Z 0 = lit "0" /\ str_of_Z 1024 = lit "1024" /\ str_of_Z (-305) = lit "-305".
Proof. repeat split; reflexivity. Qed.

Example bytes_decode_literals :
  bytes_decode [xc3; xa9] = Ok [233%N]
  /\ bytes_decode [xe2; x82; xac] = Ok [8364%N]
  /\ bytes_decode [xf0; x9f; x98; x80] = Ok [128512%N]
  /\ bytes_decode [xc0; x80] = Raise UnicodeDecodeError
  /\ bytes_decode [xed; xa0; x80] = Raise UnicodeDecodeError
  /\ bytes_decode [xe2; x82] = Raise UnicodeDecodeError.
Proof. repeat split; reflexivity. Qed.

(** The line quoted in the source of [parse_plan]. *)
Example parse_plan_quoted_line :
  parse_plan ascii_digits_only (PyStr (lit "Plan: 4 to add, 11 to change, 7 to destroy."))
  = Ok (Some 4, Some 11, Some 7).
Proof. reflexivity. Qed.

(** ** [get_action] *)

(** C4: [get_action] answers "apply" exactly for the branch "master" outside
    a pull request and "plan" in every other case; the four listed calls
    are instances. *)
Theorem get_action_apply_iff (branch : pyobj) (pull_request : bool) :
  (get_action branch pull_request = lit "apply"
     <-> branch = PyStr (lit "master") /\ pull_request = false)
  /\ (get_action branch pull_request = lit "plan"
     <-> ~ (branch = PyStr (lit "master") /\ pull_request = false))
  /\ get_action (PyStr (lit "master")) false = lit "apply"
  /\ get_action (PyStr (lit "master")) true = lit "plan"
  /\ get_action (PyStr (lit "develop")) false = lit "plan"
  /\ get_action PyNone false = lit "plan".
Proof.
  assert (Hne : lit "apply" <> lit "plan") by (intros H; vm_compute in H; discriminate).
  split; [| split; [| repeat split; reflexivity]].
  - unfold get_action, obj_eqb.
    case_bool_decide as Hb; destruct pull_request; simpl.
    all: split; [intros H | intros [H1 H2]]; try done.
    all: symmetry in H; by destruct Hne.
  - unfold get_action, obj_eqb.
    case_bool_decide as Hb; destruct pull_request; simpl.
    all: split; [intros H [H1 H2] | intros H]; try done.
    by destruct H.
Qed.

(** ** Characters and decimal numerals *)














(** ** [split] undoes a [join] on single spaces *)



(** ** [parse_plan] *)

Section ParsePlan.

Variable to_decimal : char -> option N.

(** *** [int] on a decimal numeral *)





(** *** The well-formed line *)






Lemma no_changes_not_plan : startswith NO_CHANGES PLAN_PREFIX = false.
Proof. reflexivity. Qed.

Lemma str_eqb_true (a b : str) : str_eqb a b = true <-> a = b.
Proof. unfold str_eqb. apply bool_decide_eq_true. Qed.

Lemma str_eqb_false (a b : str) : str_eqb a b = false <-> a <> b.
Proof. unfold str_eqb. apply bool_decide_eq_false. Qed.

Lemma parse_plan_str (s : str) :
  parse_plan to_decimal (PyStr s) = parse_lines to_decimal (splitlines s) None None None
  \/ parse_lines to_decimal (splitlines s) None None None = Raise AttributeError.
Proof.
  unfold parse_plan, obj_splitlines, try_except; simpl.
  destruct (parse_lines to_decimal _ _ _ _) as [r|e]; [by left |].
  case_decide; subst; [by right | by left].
Qed.

Lemma py_int_raises (s : str) (e : exn) : py_int to_decimal s = Raise e -> e = ValueError.
Proof.
  unfold py_int.
  destruct (match skip_spaces _ with [] => _ | _ :: _ => _ end) as [negative body].
  destruct body as [|c0 body]; [by intros [=] |].
  destruct (is_digit c0); [| by intros [=]].
  destruct (scan_digits _ _ _) as [[n r]|]; [| by intros [=]].
  by destruct (skip_spaces r); intros [=].
Qed.

Lemma getitem_raises {A} (l : list A) (i : nat) (e : exn) :
  getitem l i = Raise e -> e = IndexError.
Proof. unfold getitem. by destruct (l !! i); intros [=]. Qed.

Lemma plan_counts_raises (line : str) (e : exn) :
  plan_counts to_decimal line = Raise e -> e = IndexError \/ e = ValueError.
Proof.
  unfold plan_counts. intros H.
  repeat (apply bind_Raise_inv in H as [H | (? & _ & H)];
          [first [apply getitem_raises in H; by left
                 | apply py_int_raises in H; by right] |]).
  discriminate.
Qed.

Lemma parse_lines_raises (lines : list str) (a c d : option Z) (e : exn) :
  parse_lines to_decimal lines a c d = Raise e -> e = IndexError \/ e = ValueError.
Proof.
  revert a c d. induction lines as [|line rest IH]; intros a c d; simpl; [by intros [=] |].
  destruct (startswith line PLAN_PREFIX).
  - intros H. apply bind_Raise_inv in H as [H | ([[a' c'] d'] & _ & H)].
    + by apply plan_counts_raises in H.
    + by apply IH in H.
  - destruct (str_eqb line NO_CHANGES); [by intros [=] | apply IH].
Qed.

Lemma parse_plan_lines (s : str) :
  parse_plan to_decimal (PyStr s) = parse_lines to_decimal (splitlines s) None None None.
Proof.
  destruct (parse_plan_str s) as [H | H]; [done |].
  apply parse_lines_raises in H as [[=] | [=]].
Qed.

Lemma plan_counts_returns_iff (line : str) :
  returns (plan_counts to_decimal line) <-> numeric_tokens to_decimal line.
Proof.
  unfold plan_counts, numeric_tokens, getitem. split.
  - intros [r H].
    destruct (split line !! 1%nat) as [t1|]; [simpl in H | done].
    apply bind_Ok_inv in H as (a & Ha & H).
    destruct (split line !! 4%nat) as [t4|]; [simpl in H | done].
    apply bind_Ok_inv in H as (c & Hc & H).
    destruct (split line !! 7%nat) as [t7|]; [simpl in H | done].
    apply bind_Ok_inv in H as (d & Hd & H).
    exists t1, t4, t7. rewrite Ha, Hc, Hd. eauto 10 using @returns_Ok.
  - intros (t1 & t4 & t7 & -> & -> & -> & [a Ha] & [c Hc] & [d Hd]).
    simpl. rewrite Ha. simpl. rewrite Hc. simpl. rewrite Hd. simpl. apply returns_Ok.
Qed.

(** Lines that match neither pattern leave the three locals as they are. *)
Lemma parse_lines_skip (pre rest : list str) (a c d : option Z) :
  Forall (fun line => startswith line PLAN_PREFIX = false /\ line <> NO_CHANGES) pre ->
  parse_lines to_decimal (pre ++ rest) a c d = parse_lines to_decimal rest a c d.
Proof.
  induction 1 as [|line pre' [Hp Hn] _ IH]; simpl; [done |].
  rewrite Hp. apply str_eqb_false in Hn. by rewrite Hn.
Qed.

Lemma parse_lines_returns_iff (lines : list str) (a c d : option Z) :
  returns (parse_lines to_decimal lines a c d) <->
  forall pre line post,
    lines = pre ++ line :: post -> NO_CHANGES ∉ pre ->
    startswith line PLAN_PREFIX = true -> numeric_tokens to_decimal line.
Proof.
  revert a c d. induction lines as [|l rest IH]; intros a c d; simpl.
  - split; [| intros; apply returns_Ok].
    intros _ [|??] ?? [=].
  - destruct (startswith l PLAN_PREFIX) eqn:Hp.
    + rewrite returns_bind. split.
      * intros ([[a' c'] d'] & Hl & Hrest) pre line post Heq Hnin Hline.
        destruct pre as [|l' pre']; simplify_eq/=.
        { apply plan_counts_returns_iff. rewrite Hl. apply returns_Ok. }
        apply not_elem_of_cons in Hnin as [_ Hnin].
        by apply (proj1 (IH _ _ _) Hrest pre' line post).
      * intros Hall.
        destruct (proj2 (plan_counts_returns_iff l)) as [[[a' c'] d'] Hl].
        { by apply (Hall [] l rest); [| apply not_elem_of_nil |]. }
        exists (a', c', d'). split; [done |].
        apply IH. intros pre line post -> Hnin Hline.
        apply (Hall (l :: pre) line post); [done | | done].
        apply not_elem_of_cons. split; [| done].
        intros <-. by rewrite no_changes_not_plan in Hp.
    + destruct (str_eqb l NO_CHANGES) eqn:Hn.
      * apply str_eqb_true in Hn as ->.
        split; [| intros; apply returns_Ok].
        intros _ [|l' pre'] line post Heq Hnin Hline; simplify_eq/=.
        destruct Hnin. by left.
      * rewrite IH. split.
        -- intros Hall [|l' pre'] line post Heq Hnin Hline; simplify_eq/=.
           { by rewrite Hp in Hline. }
           apply not_elem_of_cons in Hnin as [_ Hnin]. by apply (Hall pre' line post).
        -- intros Hall pre line post -> Hnin Hline.
           apply (Hall (l :: pre) line post); [done | | done].
           apply not_elem_of_cons. split; [| done].
           intros <-. apply str_eqb_false in Hn. by destruct Hn.
Qed.

(** C7: an input with no line that starts with "Plan: " and no line equal
    to the no-changes sentence gives [(None, None, None)]. *)
Theorem parse_plan_no_match (s : str) :
  Forall (fun line => startswith line PLAN_PREFIX = false /\ line <> NO_CHANGES)
         (splitlines s) ->
  parse_plan to_decimal (PyStr s) = Ok (None, None, None).
Proof.
  intros H. rewrite parse_plan_lines.
  rewrite <- (app_nil_r (splitlines s)). by rewrite parse_lines_skip.
Qed.

(** C2, as the code has it: [parse_plan] returns on a string exactly when
    every line that starts with "Plan: " and is reached (no no-changes line
    before it) has integer tokens 1, 4 and 7; otherwise the [IndexError] or
    [ValueError] of the first bad line propagates.  Only a non-string
    argument is absorbed, by the [AttributeError] handler, into three
    [None]s. *)
Theorem parse_plan_returns_iff (s : str) :
  (returns (parse_plan to_decimal (PyStr s)) <->
     forall pre line post,
       splitlines s = pre ++ line :: post -> NO_CHANGES ∉ pre ->
       startswith line PLAN_PREFIX = true -> numeric_tokens to_decimal line)
  /\ (forall e, parse_plan to_decimal (PyStr s) = Raise e ->
        e = IndexError \/ e = ValueError)
  /\ parse_plan to_decimal PyNone = Ok (None, None, None).
Proof.
  rewrite parse_plan_lines. split; [apply parse_lines_returns_iff |].
  split; [| reflexivity]. intros e. apply parse_lines_raises.
Qed.

(** C6, as the code has it: when a line equals the no-changes sentence and
    every line before it that starts with "Plan: " has integer tokens 1, 4
    and 7, the result is [(0, 0, 0)] whatever those earlier lines counted
    and whatever follows. *)
Theorem no_changes_line_gives_zeros (s : str) (pre post : list str) :
  splitlines s = pre ++ NO_CHANGES :: post ->
  Forall (fun line => startswith line PLAN_PREFIX = true ->
                      numeric_tokens to_decimal line) pre ->
  parse_plan to_decimal (PyStr s) = Ok (Some 0, Some 0, Some 0).
Proof.
  intros Hs Hpre. rewrite parse_plan_lines, Hs. clear Hs.
  generalize (@None Z) at 1 as a. generalize (@None Z) at 1 as c.
  generalize (@None Z) as d.
  induction Hpre as [|l pre' Hl _ IH]; intros d c a; simpl.
  - reflexivity.
  - destruct (startswith l PLAN_PREFIX) eqn:Hp.
    + apply plan_counts_returns_iff in Hl as [[[a' c'] d'] ->]; [| done]. simpl. apply IH.
    + destruct (str_eqb l NO_CHANGES); [done | apply IH].
Qed.



End ParsePlan.

(** *** The parser on concrete outputs *)



(** C2 as stated fails: a "Plan: " line without token 1 raises
    [IndexError], one whose token 1 is not a number raises [ValueError]. *)
Lemma parse_plan_malformed_raises :
  parse_plan ascii_digits_only (PyStr (lit "Plan: ")) = Raise IndexError
  /\ parse_plan ascii_digits_only
       (PyStr (lit "Plan: many to add, 0 to change, 0 to destroy."))
     = Raise ValueError.
Proof. split; vm_compute; reflexivity. Qed.

(** C6 as stated fails: a malformed "Plan: " line before the no-changes line
    raises before that line is reached. *)
Lemma parse_plan_malformed_before_no_changes :
  parse_plan ascii_digits_only (PyStr (lit "Plan: to be computed" ++ NL ++ NO_CHANGES))
  = Raise ValueError.
Proof. vm_compute; reflexivity. Qed.

Lemma no_changes_line_gives_zeros_witness :
  parse_plan ascii_digits_only
    (PyStr (plan_line 4 11 7 ++ NL ++ NO_CHANGES ++ NL ++ lit "Plan: broken"))
  = Ok (Some 0, Some 0, Some 0).
Proof.
  apply (no_changes_line_gives_zeros ascii_digits_only _
           [plan_line 4 11 7] [lit "Plan: broken"]).
  - vm_compute; reflexivity.
  - repeat constructor. intros _.
    exists (lit "4"), (lit "11"), (lit "7").
    repeat split; try (vm_compute; reflexivity); eexists; vm_compute; reflexivity.
Defined.

Lemma parse_plan_no_match_witness :
  parse_plan ascii_digits_only
    (PyStr (lit "Refreshing state..." ++ NL ++ lit "Error: no configuration files"))
  = Ok (None, None, None).
Proof.
  apply parse_plan_no_match. repeat constructor; by vm_compute.
Defined.

(** ** [run_job] *)

Section RunJob.

Variable to_decimal : char -> option N.
Variable popen : list str -> result (Z * bytes * bytes).

(** C5, as the code has it: when the captured standard output decodes as
    UTF-8 and [parse_plan] returns on it, [run_job] returns the record with
    [success] true exactly for exit code zero, the two streams as captured
    and the parser's three counts.  It raises exactly when the decoding or
    the parser raises; the exit code plays no part in that. *)
Theorem run_job_record (path action : str) (returncode : Z) (cout cerr : bytes) :
  popen [lit "make"; lit "-C"; path; action] = Ok (returncode, cout, cerr) ->
  (forall text a c d,
     bytes_decode cout = Ok text ->
     parse_plan to_decimal (PyStr text) = Ok (a, c, d) ->
     run_job to_decimal popen path action
     = Ok {| success := returncode =? 0; stderr := Bytes cerr; stdout := Bytes cout;
             add := a; change := c; destroy := d |})
  /\ (forall st,
       run_job to_decimal popen path action = Ok st ->
       (success st = true <-> returncode = 0)
       /\ stdout st = Bytes cout /\ stderr st = Bytes cerr
       /\ exists text,
            bytes_decode cout = Ok text
            /\ parse_plan to_decimal (PyStr text) = Ok (add st, change st, destroy st))
  /\ (forall e,
       run_job to_decimal popen path action = Raise e <->
       bytes_decode cout = Raise e
       \/ exists text,
            bytes_decode cout = Ok text
            /\ parse_plan to_decimal (PyStr text) = Raise e).
Proof.
  intros Hpopen. unfold run_job, execute. rewrite Hpopen. cbn [bind].
  destruct (bytes_decode cout) as [text | e1]; cbn [bind].
  - destruct (parse_plan to_decimal (PyStr text)) as [[[a c] d] | e2] eqn:Hparse;
      cbn [bind].
    + split; [| split].
      * intros ? ? ? ? [= <-]. rewrite Hparse. by intros [= <- <- <-].
      * intros st [= <-]. simpl. rewrite Z.eqb_eq. repeat split; eauto.
      * intros e. split; [done |].
        intros [[=] | (t & [= <-] & He)]. by rewrite Hparse in He.
    + split; [| split].
      * intros ? ? ? ? [= <-]. by rewrite Hparse.
      * done.
      * intros e. split; [intros [= <-]; right; eauto |].
        intros [[=] | (t & [= <-] & He)]. congruence.
  - split; [| split]; [done | done |].
    intros e. split; [intros [= <-]; by left |].
    by intros [[= <-] | (t & [=] & _)].
Qed.

End RunJob.

(** C5 as stated fails: standard output that is not UTF-8 makes [run_job]
    raise, whatever the exit code. *)
Lemma run_job_garbled_output :
  run_job ascii_digits_only popen_garbled (lit "prod/web_app") (lit "plan")
  = Raise UnicodeDecodeError.
Proof. vm_compute; reflexivity. Qed.

Lemma run_job_record_witness :
  run_job ascii_digits_only popen_plan (lit "prod/web_app") (lit "plan")
  = Ok {| success := false;
          stderr := Bytes (blit "warning");
          stdout := Bytes (blit "Plan: 4 to add, 11 to change, 7 to destroy.");
          add := Some 4; change := Some 11; destroy := Some 7 |}.
Proof.
  refine (proj1 (run_job_record ascii_digits_only popen_plan
                   (lit "prod/web_app") (lit "plan") 1 _ _ _)
            (lit "Plan: 4 to add, 11 to change, 7 to destroy.") _ _ _ _ _).
  - reflexivity.
  - vm_compute; reflexivity.
  - vm_compute; reflexivity.
Defined.

(** ** [dict] *)

Lemma dict_lookup_keys {V} (d : dict V) (k : str) :
  k ∈ keys d <-> exists v, dict_lookup d k = Some v.
Proof.
  induction d as [|[k' v'] d IH]; simpl.
  - split; [by intros ?%elem_of_nil | by intros [? ?]].
  - rewrite elem_of_cons, IH. case_decide as Hk; subst.
    + split; [intros _; by exists v' | by left].
    + split; [by intros [-> | ?] | by right].
Qed.

Lemma subseteq_cons_inv {A} (x : A) (l1 l2 : list A) :
  x :: l1 ⊆ l2 -> x ∈ l2 /\ l1 ⊆ l2.
Proof.
  intros H. split; [apply H; by left |]. intros y Hy. apply H. by right.
Qed.

Lemma dict_getitem_keys {V} (d : dict V) (k : str) :
  k ∈ keys d -> exists v, dict_lookup d k = Some v /\ dict_getitem d k = Ok v.
Proof.
  intros [v Hv]%dict_lookup_keys. exists v. unfold dict_getitem. by rewrite Hv.
Qed.

(** ** [render_comment] *)







Lemma row_loop_acc (status : dict status_record) (ks : list str) (comment : str) :
  row_loop status ks comment
  = (let* rows := row_loop status ks [] in Ok (comment ++ rows)).
Proof.
  revert comment. induction ks as [|k ks IH]; intros comment; simpl.
  - by rewrite app_nil_r.
  - destruct (dict_getitem status k) as [r|e]; [| done]. cbn [bind].
    destruct (render_row k r) as [line|e]; [| done]. cbn [bind].
    rewrite IH, (IH (line ++ NL)).
    destruct (row_loop status ks []) as [rows|e]; [| done]. simpl.
    by rewrite <- !app_assoc.
Qed.

Lemma section_loop_acc (status : dict status_record) (ks : list str) (comment : str) :
  section_loop status ks comment
  = (let* secs := section_loop status ks [] in Ok (comment ++ secs)).
Proof.
  revert comment. induction ks as [|k ks IH]; intros comment; simpl.
  - by rewrite app_nil_r.
  - destruct (dict_getitem status k) as [r|e]; [| done]. cbn [bind].
    destruct (render_section k r) as [line|e]; [| done]. cbn [bind].
    rewrite IH, (IH line).
    destruct (section_loop status ks []) as [secs|e]; [| done]. simpl.
    by rewrite <- !app_assoc.
Qed.

Lemma join_header (fa fc fd : str) :
  join (lit " | ")
    [lit "Module"; lit "Success"; fa ++ lit "Add"; fc ++ lit "Change"; fd ++ lit "Destroy"]
  = header fa fc fd.
Proof.
  unfold header, join.
  change (lit "Module | Success | ") with (lit "Module" ++ lit " | " ++ lit "Success" ++ lit " | ").
  change (lit "Add | ") with (lit "Add" ++ lit " | ").
  change (lit "Change | ") with (lit "Change" ++ lit " | ").
  by rewrite <- !app_assoc.
Qed.

(** The comment is the header, the separator, the rows and the sections. *)
Lemma render_comment_parts (status : dict status_record) :
  render_comment status
  = (let* fa := flag status Add in
     let* fc := flag status Change in
     let* fd := flag status Destroy in
     let* rows := row_loop status (keys status) [] in
     let* secs := section_loop status (keys status) [] in
     Ok (header fa fc fd ++ NL ++ SEPARATOR ++ NL ++ rows ++ secs)).
Proof.
  unfold render_comment.
  destruct (flag status Add) as [fa|e]; [| done]. cbn [bind].
  destruct (flag status Change) as [fc|e]; [| done]. cbn [bind].
  destruct (flag status Destroy) as [fd|e]; [| done]. cbn [bind].
  rewrite join_header, row_loop_acc.
  destruct (row_loop status (keys status) []) as [rows|e]; [| done]. cbn [bind].
  rewrite section_loop_acc.
  destruct (section_loop status (keys status) []) as [secs|e]; [| done]. cbn [bind].
  by rewrite <- !app_assoc.
Qed.

Lemma change_cell_int (n : Z) : change_cell (Some n) = Ok (shown_count n).
Proof. reflexivity. Qed.

Lemma render_row_int (status : dict status_record) (k : str) (r : status_record) :
  integer_counts status -> dict_lookup status k = Some r ->
  exists row, render_row k r = Ok row /\ is_row status k row.
Proof.
  intros Hint Hr.
  destruct (Hint k r Add Hr) as [a Ha], (Hint k r Change Hr) as [c Hc],
    (Hint k r Destroy Hr) as [d Hd]. simpl in Ha, Hc, Hd.
  unfold render_row. rewrite Ha, Hc, Hd, !change_cell_int. cbn [bind].
  eexists. split; [reflexivity |].
  exists r, a, c, d. repeat (split; [done |]). reflexivity.
Qed.

Lemma row_loop_int (status : dict status_record) (ks : list str) :
  integer_counts status -> ks ⊆ keys status ->
  exists rows,
    row_loop status ks [] = Ok (concat (map (fun row => row ++ NL) rows))
    /\ Forall2 (is_row status) ks rows.
Proof.
  intros Hint. induction ks as [|k ks IH]; intros Hks.
  - exists []. by split; [| constructor].
  - apply subseteq_cons_inv in Hks as [Hk Hks].
    destruct (dict_getitem_keys status k Hk) as (r & Hr & Hget).
    destruct (render_row_int status k r Hint Hr) as (row & Hrow & Hisrow).
    destruct (IH Hks) as (rows & Hrows & Hall).
    exists (row :: rows). split; [| by constructor].
    simpl. rewrite Hget. cbn [bind]. rewrite Hrow. cbn [bind].
    rewrite row_loop_acc, Hrows. simpl. by rewrite <- !app_assoc.
Qed.

Lemma flag_loop_int (status : dict status_record) (col : column) (ks : list str) :
  integer_counts status -> ks ⊆ keys status ->
  (flag_loop status col ks = Ok (map_change col)
   /\ exists k r n, k ∈ ks /\ dict_lookup status k = Some r
                    /\ count r col = Some n /\ 0 < n)
  \/ (flag_loop status col ks = Ok []
      /\ forall k r n, k ∈ ks -> dict_lookup status k = Some r ->
                       count r col = Some n -> n <= 0).
Proof.
  intros Hint. induction ks as [|k ks IH]; intros Hks.
  - right. split; [done |]. by intros ??? ?%elem_of_nil.
  - apply subseteq_cons_inv in Hks as [Hk Hks].
    destruct (dict_getitem_keys status k Hk) as (r & Hr & Hget).
    destruct (Hint k r col Hr) as [n Hn].
    simpl. rewrite Hget. cbn [bind]. rewrite Hn. simpl.
    destruct (Z.ltb_spec 0 n) as [Hpos | Hle].
    + left. split; [done |]. exists k, r, n. repeat split; try done. by left.
    + destruct (IH Hks) as [[-> (k' & r' & n' & Hk' & H')] | [-> Hall]].
      * left. split; [done |]. exists k', r', n'. split; [by right | done].
      * right. split; [done |]. intros k' r' n' [-> | Hk']%elem_of_cons Hr' Hn'.
        -- congruence.
        -- by apply (Hall k' r' n').
Qed.





Lemma all_zero_integer_counts (status : dict status_record) :
  all_zero status -> integer_counts status.
Proof.
  intros Hzero k r col Hr. destruct (Hzero k r Hr) as (_ & Ha & Hc & Hd).
  destruct col; simpl; eauto.
Qed.

Lemma flag_all_zero (status : dict status_record) (col : column) :
  all_zero status -> flag status col = Ok [].
Proof.
  intros Hzero. unfold flag.
  destruct (flag_loop_int status col (keys status)) as
    [[_ (k & r & n & _ & Hr & Hn & Hpos)] | [-> _]];
    [by apply all_zero_integer_counts | done | | done].
  destruct (Hzero k r Hr) as (_ & Ha & Hc & Hd).
  destruct col; simpl in Hn; simplify_eq; lia.
Qed.

(** C3, as the code has it: when every module succeeded with all counts
    zero, the header row carries no marker icon and every row shows its
    counts as plain zeros; each row still carries the green icon of the
    Success column, and the module name is bolded. *)
Theorem render_comment_all_zero (status : dict status_record) :
  all_zero status ->
  render_comment status
  = (let* secs := section_loop status (keys status) [] in
     Ok (lit "Module | Success | Add | Change | Destroy" ++ NL
         ++ SEPARATOR ++ NL
         ++ concat (map (fun k =>
              lit "**" ++ k
              ++ lit "** | ![#c5f015](https://placehold.it/15/c5f015/000000?text=+) `True` | 0 | 0 | 0"
              ++ NL) (keys status))
         ++ secs)).
Proof.
  intros Hzero. rewrite render_comment_parts, !flag_all_zero by done. cbn [bind].
  destruct (row_loop_int status (keys status)) as (rows & -> & Hall);
    [by apply all_zero_integer_counts | done |]. cbn [bind].
  assert (map (fun row => row ++ NL) rows
          = map (fun k =>
              lit "**" ++ k
              ++ lit "** | ![#c5f015](https://placehold.it/15/c5f015/000000?text=+) `True` | 0 | 0 | 0"
              ++ NL) (keys status)) as ->; [| done].
  induction Hall as [|k row ks rows (r & a & c & d & Hr & Ha & Hc & Hd & ->) _ IH];
    [done |].
  destruct (Hzero k r Hr) as (Hok & Ha' & Hc' & Hd'). simplify_eq.
  simpl. rewrite IH, Hok. f_equal. rewrite <- !app_assoc. by do 2 f_equal.
Qed.

(** C3 as stated fails: with all counts zero and [success] true the row of
    a module carries the icon that marks the Add column, here before the
    word True. *)
Lemma all_zero_row_has_icon :
  all_zero status_all_zero
  /\ render_comment status_all_zero
     = Ok (lit "Module | Success | Add | Change | Destroy" ++ NL
           ++ SEPARATOR ++ NL
           ++ lit "**web** | " ++ map_change Add ++ lit "`True` | 0 | 0 | 0" ++ NL
           ++ NL ++ lit "# **web**" ++ NL
           ++ NL ++ lit "## stdout" ++ NL
           ++ NL ++ lit "_no output_" ++ NL
           ++ NL ++ lit "## stderr" ++ NL
           ++ NL ++ lit "_no output_" ++ NL).
Proof.
  split; [| vm_compute; reflexivity].
  intros k r Hr. unfold status_all_zero in Hr. simpl in Hr.
  case_decide; by simplify_eq.
Qed.

Lemma render_comment_all_zero_witness :
  render_comment status_all_zero
  = (let* secs := section_loop status_all_zero (keys status_all_zero) [] in
     Ok (lit "Module | Success | Add | Change | Destroy" ++ NL
         ++ SEPARATOR ++ NL
         ++ concat (map (fun k =>
              lit "**" ++ k
              ++ lit "** | ![#c5f015](https://placehold.it/15/c5f015/000000?text=+) `True` | 0 | 0 | 0"
              ++ NL) (keys status_all_zero))
         ++ secs)).
Proof.
  apply render_comment_all_zero.
  intros k r Hr. unfold status_all_zero in Hr. simpl in Hr.
  case_decide; by simplify_eq.
Defined.


(** The instance the specification lists: [add = 4] for one module gives a
    bolded 4 in its row and the marker icon before Add in the header. *)
Example render_comment_add_four :
  render_comment status_add_four
  = Ok (lit "Module | Success | " ++ map_change Add ++ lit "Add | Change | Destroy" ++ NL
        ++ SEPARATOR ++ NL
        ++ lit "**web** | " ++ tag_map true ++ lit " `True` | **4** | 0 | 0" ++ NL
        ++ NL ++ lit "# **web**" ++ NL
        ++ NL ++ lit "## stdout" ++ NL
        ++ NL ++ lit "_no output_" ++ NL
        ++ NL ++ lit "## stderr" ++ NL
        ++ NL ++ lit "_no output_" ++ NL).
Proof. vm_compute; reflexivity. Qed.


(** ** [setup_environment] *)

Lemma promote_Ok (tf_vars : dict str) (environ : gmap str str) (variable : str) :
  promote tf_vars environ variable
  = Ok (match dict_lookup tf_vars (lit "TF_VAR_" ++ upper variable) with
        | Some value => <[variable := value]> environ
        | None => environ
        end).
Proof.
  unfold promote, dict_getitem.
  by destruct (dict_lookup tf_vars (lit "TF_VAR_" ++ upper variable)).
Qed.






(** * Further properties *)

(** ** [parse_plan]: the shape of the result and the tokens it reads *)

Section ParsePlanMore.

Variable to_decimal : char -> option N.

Lemma parse_lines_all_or_none (lines : list str) (a c d : option Z) (r : counts) :
  ((a, c, d) = (None, None, None) \/ exists x y z, (a, c, d) = (Some x, Some y, Some z)) ->
  parse_lines to_decimal lines a c d = Ok r ->
  r = (None, None, None) \/ exists x y z, r = (Some x, Some y, Some z).
Proof.
  revert a c d. induction lines as [|line rest IH]; intros a c d Hacd; simpl.
  - by intros [= <-].
  - destruct (startswith line PLAN_PREFIX).
    + intros H. apply bind_Ok_inv in H as ([[x y] z] & _ & H).
      apply IH in H; [done | right; eauto].
    + destruct (str_eqb line NO_CHANGES); [intros [= <-]; right; eauto | by apply IH].
Qed.

(** X1: the three counts come together: [parse_plan] returns three [None]s
    or three integers, never a mixture. *)
Theorem parse_plan_all_or_none (output : pyobj) (r : counts) :
  parse_plan to_decimal output = Ok r ->
  r = (None, None, None) \/ exists x y z, r = (Some x, Some y, Some z).
Proof.
  destruct output as [|s].
  - intros [= <-]. by left.
  - rewrite parse_plan_lines. apply parse_lines_all_or_none. by left.
Qed.


(** *** Signed counts *)


Lemma str_of_Z_nonneg (z : Z) : 0 <= z -> str_of_Z z = str_of_N (Z.to_N z).
Proof. by destruct z. Qed.







End ParsePlanMore.

Lemma parse_plan_all_or_none_witness :
  (Some 4, Some 11, Some 7) = (None, None, None)
  \/ exists x y z, (Some 4, Some 11, Some 7) = (Some x, Some y, Some z).
Proof.
  apply (parse_plan_all_or_none ascii_digits_only
           (PyStr (lit "Plan: 4 to add, 11 to change, 7 to destroy."))).
  vm_compute; reflexivity.
Defined.


(** ** [module_name_from_path] *)

Lemma split_sep_from_slash (cur : str) (c : char) (rest : str) :
  split_sep_from OS_SEP 0 cur (c :: rest)
  = if bool_decide (c = 47%N) then rev cur :: split_sep_from OS_SEP 0 [] rest
    else split_sep_from OS_SEP 0 (c :: cur) rest.
Proof.
  change OS_SEP with [47%N]. cbn [split_sep_from has_prefix length Nat.sub].
  by rewrite andb_true_r.
Qed.

Lemma split_sep_from_no_slash (cur s : str) :
  47%N ∉ s -> split_sep_from OS_SEP 0 cur s = [rev cur ++ s].
Proof.
  revert cur. induction s as [|c s IH]; intros cur Hs.
  - simpl. by rewrite app_nil_r.
  - apply not_elem_of_cons in Hs as [Hc Hs].
    rewrite split_sep_from_slash, bool_decide_eq_false_2 by done.
    rewrite IH by done. simpl. by rewrite <- app_assoc.
Qed.

Lemma split_sep_from_nonempty (cur s : str) : split_sep_from OS_SEP 0 cur s <> [].
Proof.
  revert cur. induction s as [|c s IH]; intros cur; [done |].
  rewrite split_sep_from_slash. case_bool_decide; [done | apply IH].
Qed.

Lemma not_elem_of_rev {A} (x : A) (l : list A) : x ∉ l -> x ∉ rev l.
Proof.
  intros Hl Hrev. apply Hl. apply list_elem_of_In, in_rev. by apply list_elem_of_In.
Qed.

Lemma split_sep_from_pieces (cur s : str) :
  47%N ∉ cur -> Forall (fun piece => 47%N ∉ piece) (split_sep_from OS_SEP 0 cur s).
Proof.
  revert cur. induction s as [|c s IH]; intros cur Hcur.
  - simpl. constructor; [by apply not_elem_of_rev | constructor].
  - rewrite split_sep_from_slash. case_bool_decide as Hc.
    + constructor; [by apply not_elem_of_rev | apply IH; apply not_elem_of_nil].
    + apply IH. by apply not_elem_of_cons.
Qed.

Lemma last_split_sep_from (cur parent name : str) :
  47%N ∉ name ->
  last (split_sep_from OS_SEP 0 cur (parent ++ 47%N :: name)) = Some name.
Proof.
  intros Hname. revert cur. induction parent as [|c parent IH]; intros cur.
  - simpl app. rewrite split_sep_from_slash, bool_decide_eq_true_2 by done.
    by rewrite split_sep_from_no_slash.
  - simpl app. rewrite split_sep_from_slash. case_bool_decide; [| apply IH].
    specialize (IH []). pose proof (split_sep_from_nonempty [] (parent ++ 47%N :: name)).
    destruct (split_sep_from OS_SEP 0 [] (parent ++ 47%N :: name)); [done |].
    by rewrite last_cons_cons.
Qed.

Section ModuleName.

Variable abspath : str -> str.

(** X4: [module_name_from_path] never raises, and the name it returns
    holds no path separator. *)
Theorem module_name_has_no_separator (path : str) :
  exists name, module_name_from_path abspath path = Ok name /\ 47%N ∉ name.
Proof.
  unfold module_name_from_path, getitem_last, split_sep.
  destruct (str_eqb (abspath path) (lit "/")).
  - exists (lit "root"). split; [done |]. by apply (bool_decide_unpack _).
  - pose proof (split_sep_from_pieces [] (abspath path) (not_elem_of_nil _)) as Hpieces.
    pose proof (split_sep_from_nonempty [] (abspath path)) as Hne.
    destruct (last (split_sep_from OS_SEP 0 [] (abspath path))) as [name|] eqn:Hlast.
    + exists name. split; [done |].
      rewrite Forall_forall in Hpieces. apply Hpieces.
      apply last_Some in Hlast as [l' ->]. apply elem_of_app. right. by left.
    + by apply last_None in Hlast.
Qed.

(** X5: the name is the last component of the absolute path, the directory
    itself and not the one above it; only the root directory, which has no
    component, is called "root". *)
Theorem module_name_is_last_component (path parent name : str) :
  abspath path = parent ++ lit "/" ++ name ->
  47%N ∉ name ->
  abspath path <> lit "/" ->
  module_name_from_path abspath path = Ok name.
Proof.
  intros Habs Hname Hroot. unfold module_name_from_path, getitem_last, split_sep.
  apply str_eqb_false in Hroot. rewrite Hroot, Habs.
  change (lit "/" ++ name) with (47%N :: name).
  by rewrite last_split_sep_from.
Qed.

End ModuleName.

Lemma module_name_is_last_component_witness :
  module_name_from_path abspath_id (lit "/srv/terraform/prod/web_app") = Ok (lit "web_app").
Proof.
  apply (module_name_is_last_component abspath_id _ (lit "/srv/terraform/prod")).
  - reflexivity.
  - by apply (bool_decide_unpack _).
  - by vm_compute.
Defined.

(** ** [setup_environment] as an overlay *)

Lemma copy_all_overlay (tf_vars : dict str) (environ : gmap str str) :
  copy_all tf_vars environ = copy_all tf_vars ∅ ∪ environ.
Proof.
  unfold copy_all. revert environ.
  induction tf_vars as [|[k v] tf IH]; intros environ; simpl.
  - by rewrite (left_id_L ∅ (∪)).
  - rewrite IH, (IH (<[k:=v]> ∅)), <- (assoc_L (∪)).
    by rewrite <- insert_union_l, (left_id_L ∅ (∪)).
Qed.

Lemma promote_loop_overlay (tf_vars : dict str) (vars : list str) (environ : gmap str str) :
  exists updates : gmap str str,
    promote_loop tf_vars vars ∅ = Ok updates
    /\ promote_loop tf_vars vars environ = Ok (updates ∪ environ).
Proof.
  assert (forall env0 : gmap str str,
            exists upd : gmap str str,
              forall env, promote_loop tf_vars vars (env0 ∪ env) = Ok (upd ∪ env)) as Hgen.
  { induction vars as [|variable vars IH]; intros env0; simpl.
    - by exists env0.
    - destruct (dict_lookup tf_vars (lit "TF_VAR_" ++ upper variable)) as [value|] eqn:Hl.
      + destruct (IH (<[variable := value]> env0)) as [upd Hupd]. exists upd. intros env.
        rewrite promote_Ok, Hl. cbn [bind]. by rewrite insert_union_l.
      + destruct (IH env0) as [upd Hupd]. exists upd. intros env.
        rewrite promote_Ok, Hl. cbn [bind]. apply Hupd. }
  destruct (Hgen ∅) as [upd Hupd]. exists upd. split.
  - specialize (Hupd ∅). by rewrite (left_id_L ∅ (∪)), (right_id_L ∅ (∪)) in Hupd.
  - specialize (Hupd environ). by rewrite (left_id_L ∅ (∪)) in Hupd.
Qed.

Lemma setup_environment_union (tf_vars : dict str) :
  exists updates : gmap str str,
    forall environ, setup_environment tf_vars environ = Ok (updates ∪ environ).
Proof.
  unfold setup_environment.
  exists (copy_all tf_vars ∅
          ∪ match promote_loop tf_vars common_variables ∅ with
            | Ok upd => upd
            | Raise _ => ∅
            end).
  intros environ.
  destruct (promote_loop_overlay tf_vars common_variables environ) as (upd & -> & ->).
  cbn [bind]. by rewrite copy_all_overlay, (assoc_L (∪)).
Qed.


(** X7: running [setup_environment] again on its own result changes
    nothing. *)
Theorem setup_environment_idempotent (tf_vars : dict str) (environ : gmap str str) :
  (let* environ' := setup_environment tf_vars environ in
   setup_environment tf_vars environ')
  = setup_environment tf_vars environ.
Proof.
  destruct (setup_environment_union tf_vars) as [upd Hupd].
  rewrite !Hupd. cbn [bind]. rewrite Hupd.
  by rewrite (assoc_L (∪)), (idemp_L (∪)).
Qed.

(** *** The order of the keys in the file *)








(** ** [bytes.decode]: the only error *)

Lemma list_length_ind {A} (P : list A -> Prop) :
  (forall l, (forall l', (length l' < length l)%nat -> P l') -> P l) -> forall l, P l.
Proof.
  intros Hstep l. remember (length l) as n eqn:Hn. revert l Hn.
  induction n as [n IH] using lt_wf_ind. intros l ->.
  apply Hstep. intros l' Hlt. by apply (IH (length l')).
Qed.

Ltac decode_cases :=
  repeat match goal with
    | |- context [if ?c then _ else _] => destruct c eqn:?
    | |- context [match ?l with [] => _ | _ :: _ => _ end] => destruct l
    end.

Lemma utf8_decode_raises (bs : list N) (e : exn) :
  utf8_decode bs = Raise e -> e = UnicodeDecodeError.
Proof.
  revert e. induction bs as [bs IH] using list_length_ind. intros e.
  destruct bs as [|b0 r0]; [done |]. cbn [utf8_decode]. decode_cases.
  all: try by intros [= <-].
  all: intros [H | (? & _ & [=])]%bind_Raise_inv.
  all: apply IH in H; [done | simpl; lia].
Qed.


(** ** [render_comment]: when it returns, and the output sections *)












(** *** Bytes and text render alike *)

Lemma blob_text_as_text (b : blob) : blob_text (as_text b) = blob_text b.
Proof. unfold as_text. by destruct (blob_text b) eqn:Hb. Qed.

Lemma keys_textual_status (status : dict status_record) :
  keys (textual_status status) = keys status.
Proof. unfold keys, textual_status. rewrite map_map. by apply map_ext. Qed.

Lemma dict_getitem_textual_status (status : dict status_record) (k : str) :
  dict_getitem (textual_status status) k
  = (let* r := dict_getitem status k in Ok (textual r)).
Proof.
  unfold dict_getitem. induction status as [|[k' r'] status IH]; simpl; [done |].
  by case_decide.
Qed.

Lemma render_row_textual (k : str) (r : status_record) :
  render_row k (textual r) = render_row k r.
Proof. reflexivity. Qed.

Lemma render_section_textual (k : str) (r : status_record) :
  render_section k (textual r) = render_section k r.
Proof. unfold render_section. simpl. by rewrite !blob_text_as_text. Qed.

Lemma flag_loop_textual (status : dict status_record) (col : column) (ks : list str) :
  flag_loop (textual_status status) col ks = flag_loop status col ks.
Proof.
  induction ks as [|k ks IH]; simpl; [done |].
  rewrite dict_getitem_textual_status.
  destruct (dict_getitem status k) as [r|e]; [| done]. cbn [bind].
  assert (count (textual r) col = count r col) as -> by by destruct col.
  destruct (gt_zero (count r col)) as [[|]|e]; by cbn [bind].
Qed.

Lemma row_loop_textual (status : dict status_record) (ks : list str) (comment : str) :
  row_loop (textual_status status) ks comment = row_loop status ks comment.
Proof.
  revert comment. induction ks as [|k ks IH]; intros comment; simpl; [done |].
  rewrite dict_getitem_textual_status.
  destruct (dict_getitem status k) as [r|e]; [| done]. cbn [bind].
  rewrite render_row_textual. destruct (render_row k r); [| done]. cbn [bind]. apply IH.
Qed.

Lemma section_loop_textual (status : dict status_record) (ks : list str) (comment : str) :
  section_loop (textual_status status) ks comment = section_loop status ks comment.
Proof.
  revert comment. induction ks as [|k ks IH]; intros comment; simpl; [done |].
  rewrite dict_getitem_textual_status.
  destruct (dict_getitem status k) as [r|e]; [| done]. cbn [bind].
  rewrite render_section_textual. destruct (render_section k r); [| done]. cbn [bind].
  apply IH.
Qed.

(** X11: captured bytes are rendered as their UTF-8 text: holding the
    outputs of every module as the decoded text instead of the bytes
    changes nothing in the comment, nor in the error when one does not
    decode. *)
Theorem render_comment_bytes_as_text (status : dict status_record) :
  render_comment (textual_status status) = render_comment status.
Proof.
  unfold render_comment, flag. rewrite keys_textual_status, !flag_loop_textual.
  destruct (flag_loop status Add (keys status)) as [fa|e]; [| done]. cbn [bind].
  destruct (flag_loop status Change (keys status)) as [fc|e]; [| done]. cbn [bind].
  destruct (flag_loop status Destroy (keys status)) as [fd|e]; [| done]. cbn [bind].
  rewrite row_loop_textual.
  destruct (row_loop status (keys status) _) as [comment|e]; [| done]. cbn [bind].
  by rewrite section_loop_textual.
Qed.

(** ** [run_job] feeding [render_comment] *)

Section Pipeline.

Variable to_decimal : char -> option N.
Variable popen : list str -> result (Z * bytes * bytes).

(** X12: in a record that [run_job] returns the standard output always
    decodes, and the three counts are all integers or all [None]. *)
Theorem job_record_shape (path action : str) (st : status_record) :
  run_job to_decimal popen path action = Ok st ->
  decodable (stdout st)
  /\ ((add st, change st, destroy st) = (None, None, None)
      \/ exists x y z, (add st, change st, destroy st) = (Some x, Some y, Some z)).
Proof.
  unfold run_job, execute. intros H.
  apply bind_Ok_inv in H as ([[rc cout] cerr] & Hexec & H).
  apply bind_Ok_inv in H as (text & Htext & H).
  apply bind_Ok_inv in H as ([[a c] d] & Hparse & [= <-]). simpl.
  split; [unfold decodable; simpl; rewrite Htext; apply returns_Ok |].
  by apply (parse_lines_all_or_none to_decimal (splitlines text) None None None);
    [left | rewrite <- parse_plan_lines].
Qed.


End Pipeline.

(** ** [convert_to_newlines] *)

(** *** Code points of more than one byte lie above ASCII *)

Lemma in_range_spec (lo hi b : N) : in_range lo hi b = true <-> (lo <= b <= hi)%N.
Proof. unfold in_range. rewrite andb_true_iff, !N.leb_le. done. Qed.

Lemma land_low_bits (b q n : N) :
  (q * 2 ^ n <= b < (q + 1) * 2 ^ n)%N -> N.land b (N.ones n) = (b - q * 2 ^ n)%N.
Proof.
  intros Hb. rewrite N.land_ones. symmetry.
  apply (N.mod_unique b (2 ^ n) q); lia.
Qed.

Lemma lor_ge_128_l (a b : N) : (128 <= a)%N -> (128 <= N.lor a b)%N.
Proof.
  intros Ha.
  assert (7 <= N.log2 a)%N as Hlog by (apply (N.log2_le_pow2 a 7); lia).
  assert (7 <= N.log2 (N.lor a b))%N as Hlor by (rewrite N.log2_lor; lia).
  apply (N.log2_le_pow2 _ 7); [| done].
  destruct (N.lor a b); [done | lia].
Qed.

Lemma lor_ge_128_r (a b : N) : (128 <= b)%N -> (128 <= N.lor a b)%N.
Proof. rewrite N.lor_comm. apply lor_ge_128_l. Qed.

Lemma two_byte_code_point (b0 b1 : N) :
  (194 <= b0 <= 223)%N ->
  (128 <= N.lor (N.shiftl (N.land b0 31) 6) (N.land b1 63))%N.
Proof.
  intros Hb0. apply lor_ge_128_l. change 31%N with (N.ones 5).
  rewrite N.shiftl_mul_pow2, (land_low_bits b0 6 5) by (simpl; lia).
  simpl. lia.
Qed.

Lemma three_byte_code_point (b0 b1 b2 : N) :
  (224 <= b0 <= 239)%N -> (128 <= b1 <= 191)%N -> (b0 = 224%N -> 160 <= b1)%N ->
  (128 <= N.lor (N.shiftl (N.land b0 15) 12)
            (N.lor (N.shiftl (N.land b1 63) 6) (N.land b2 63)))%N.
Proof.
  intros Hb0 Hb1 Hlow.
  destruct (N.eq_dec b0 224%N) as [Heq | Hne].
  - apply lor_ge_128_r, lor_ge_128_l. specialize (Hlow Heq).
    change 63%N with (N.ones 6).
    rewrite N.shiftl_mul_pow2, (land_low_bits b1 2 6) by (simpl; lia).
    simpl. lia.
  - apply lor_ge_128_l. change 15%N with (N.ones 4).
    rewrite N.shiftl_mul_pow2, (land_low_bits b0 14 4) by (simpl; lia).
    simpl. lia.
Qed.

Lemma four_byte_code_point (b0 b1 b2 b3 : N) :
  (240 <= b0 <= 244)%N -> (128 <= b1 <= 191)%N -> (b0 = 240%N -> 144 <= b1)%N ->
  (128 <= N.lor (N.shiftl (N.land b0 7) 18)
            (N.lor (N.shiftl (N.land b1 63) 12)
               (N.lor (N.shiftl (N.land b2 63) 6) (N.land b3 63))))%N.
Proof.
  intros Hb0 Hb1 Hlow.
  destruct (N.eq_dec b0 240%N) as [Heq | Hne].
  - apply lor_ge_128_r, lor_ge_128_l. specialize (Hlow Heq).
    change 63%N with (N.ones 6).
    rewrite N.shiftl_mul_pow2, (land_low_bits b1 2 6) by (simpl; lia).
    simpl. lia.
  - apply lor_ge_128_l. change 7%N with (N.ones 3).
    rewrite N.shiftl_mul_pow2, (land_low_bits b0 30 3) by (simpl; lia).
    simpl. lia.
Qed.

Ltac range_facts :=
  repeat match goal with
    | H : _ && _ = true |- _ => apply andb_true_iff in H as [? ?]
    | H : in_range _ _ _ = true |- _ => apply in_range_spec in H
    | H : (_ =? _)%N = true |- _ => apply N.eqb_eq in H
    | H : (_ =? _)%N = false |- _ => apply N.eqb_neq in H
    | H : (_ <? _)%N = true |- _ => apply N.ltb_lt in H
    | H : (_ <? _)%N = false |- _ => apply N.ltb_ge in H
    end.

(** The code point a sequence of two, three or four bytes decodes to. *)
Ltac above_ascii :=
  range_facts;
  first [ apply two_byte_code_point; lia
        | apply three_byte_code_point; lia
        | apply four_byte_code_point; lia ].

(** *** Replacing the escaped newline *)

Lemma str_replace_nl_nil : str_replace [] ESCAPED_NEWLINE NL = [].
Proof. reflexivity. Qed.

Lemma str_replace_nl_pair (rest : str) :
  str_replace (92 :: 110 :: rest)%N ESCAPED_NEWLINE NL
  = 10%N :: str_replace rest ESCAPED_NEWLINE NL.
Proof. reflexivity. Qed.

Lemma str_replace_nl_other (b : char) (rest : str) :
  ~ (b = 92%N /\ head rest = Some 110%N) ->
  str_replace (b :: rest) ESCAPED_NEWLINE NL = b :: str_replace rest ESCAPED_NEWLINE NL.
Proof.
  intros Hno. unfold str_replace, ESCAPED_NEWLINE. cbn [replace_from has_prefix].
  destruct (bool_decide_reflect (b = 92%N)) as [-> | Hb]; [| done].
  destruct rest as [|c rest]; [done |].
  destruct (bool_decide_reflect (c = 110%N)) as [-> | Hc]; [| done].
  by destruct Hno.
Qed.

Lemma str_replace_nl_above_ascii (b : char) (rest : str) :
  (128 <= b)%N ->
  str_replace (b :: rest) ESCAPED_NEWLINE NL = b :: str_replace rest ESCAPED_NEWLINE NL.
Proof. intros Hb. apply str_replace_nl_other. intros [-> _]. lia. Qed.

Lemma str_replace_nl_head (s : str) :
  head (str_replace s ESCAPED_NEWLINE NL) = Some 110%N -> head s = Some 110%N.
Proof.
  destruct s as [|b rest]; [done |].
  destruct (decide (b = 92%N /\ head rest = Some 110%N)) as [[-> Hrest] | Hno].
  - destruct rest as [|c rest]; [done |]. injection Hrest as ->.
    by rewrite str_replace_nl_pair.
  - by rewrite str_replace_nl_other.
Qed.

Lemma str_replace_nl_ascii_head (lo hi b : N) (rest : str) :
  (128 <= lo)%N -> in_range lo hi b = false ->
  exists c t, str_replace (b :: rest) ESCAPED_NEWLINE NL = c :: t /\ in_range lo hi c = false.
Proof.
  intros Hlo Hb.
  destruct (decide (b = 92%N /\ head rest = Some 110%N)) as [[-> Hrest] | Hno].
  - destruct rest as [|c rest]; [done |]. injection Hrest as ->.
    rewrite str_replace_nl_pair. eexists _, _. split; [done |].
    unfold in_range. destruct (N.leb_spec lo 10); [lia | done].
  - rewrite str_replace_nl_other by done. eauto.
Qed.

(** No escaped newline is left after the replacement. *)
Lemma str_replace_nl_clean (s before after : str) :
  str_replace s ESCAPED_NEWLINE NL <> before ++ ESCAPED_NEWLINE ++ after.
Proof.
  revert before. induction s as [s IH] using list_length_ind. intros before.
  destruct s as [|b rest]; [by destruct before |].
  destruct (decide (b = 92%N /\ head rest = Some 110%N)) as [[-> Hrest] | Hno].
  - destruct rest as [|c rest]; [done |]. injection Hrest as ->.
    rewrite str_replace_nl_pair. destruct before as [|x before]; [done |].
    intros [= _ H]. by apply IH in H; [| simpl; lia].
  - rewrite str_replace_nl_other by done. destruct before as [|x before].
    + intros [= -> H]. apply Hno. split; [done |].
      apply str_replace_nl_head. by rewrite H.
    + intros [= _ H]. by apply IH in H; [| simpl; lia].
Qed.

(** *** Bytes and their values *)

Lemma byte_to_N_inj (x y : Byte.byte) : Byte.to_N x = Byte.to_N y -> x = y.
Proof.
  intros H. pose proof (Byte.of_to_N x) as Hx. rewrite H, Byte.of_to_N in Hx.
  by injection Hx.
Qed.

Lemma has_prefix_to_N (s p : bytes) :
  has_prefix (map Byte.to_N s) (map Byte.to_N p) = has_prefix s p.
Proof.
  revert s. induction p as [|c p IH]; intros s; [done |].
  destruct s as [|b s]; [done |]. cbn [map has_prefix]. rewrite IH. f_equal.
  apply bool_decide_ext. split; [apply byte_to_N_inj | by intros ->].
Qed.

Lemma replace_from_to_N (old new : bytes) (skip : nat) (s : bytes) :
  replace_from (map Byte.to_N old) (map Byte.to_N new) skip (map Byte.to_N s)
  = map Byte.to_N (replace_from old new skip s).
Proof.
  revert skip. induction s as [|b s IH]; intros skip; [done |].
  cbn [map replace_from]. destruct skip as [|skip]; [| apply IH].
  change (Byte.to_N b :: map Byte.to_N s) with (map Byte.to_N (b :: s)).
  rewrite has_prefix_to_N, length_map.
  destruct (has_prefix (b :: s) old); [| by rewrite IH].
  by rewrite map_app, IH.
Qed.

Lemma bytes_replace_values (text : bytes) :
  map Byte.to_N (bytes_replace text BACKSLASH_N [x0a])
  = str_replace (map Byte.to_N text) ESCAPED_NEWLINE NL.
Proof. unfold bytes_replace, str_replace. by rewrite <- replace_from_to_N. Qed.

(** *** Decoding after the replacement *)

Lemma utf8_decode_head_110 (bs s : list N) :
  utf8_decode bs = Ok s -> head s = Some 110%N -> head bs = Some 110%N.
Proof.
  destruct bs as [|b0 r0]; [by intros [= <-] |]. cbn [utf8_decode]. decode_cases.
  all: try discriminate.
  all: intros (t & _ & [= <-])%bind_Ok_inv; cbn [head]; intros [= Hcp]; try by subst.
  all: exfalso.
  all: match type of Hcp with ?cp = _ => assert (128 <= cp)%N by above_ascii end.
  all: lia.
Qed.

Lemma utf8_decode_ascii (b : N) (r : list N) :
  (b < 128)%N -> utf8_decode (b :: r) = (let* t := utf8_decode r in Ok (b :: t)).
Proof. intros Hb%N.ltb_lt. cbn [utf8_decode]. by rewrite Hb. Qed.

Ltac split_eqb :=
  repeat match goal with
    | H : context [(?a =? ?b)%N] |- _ => destruct (N.eqb_spec a b)
    end.

(** Decoding the replaced bytes is replacing in the decoded text. *)
Lemma utf8_decode_replace (bs : list N) :
  utf8_decode (str_replace bs ESCAPED_NEWLINE NL)
  = (let* s := utf8_decode bs in Ok (str_replace s ESCAPED_NEWLINE NL)).
Proof.
  induction bs as [bs IH] using list_length_ind.
  destruct bs as [|b0 r0]; [done |].
  destruct (decide (b0 = 92%N /\ head r0 = Some 110%N)) as [[-> Hr0] | Hno].
  { destruct r0 as [|c r1]; [done |]. injection Hr0 as ->.
    rewrite str_replace_nl_pair, !utf8_decode_ascii by lia.
    rewrite IH by (simpl; lia).
    destruct (utf8_decode r1); cbn [bind]; [by rewrite str_replace_nl_pair | done]. }
  rewrite str_replace_nl_other by done.
  destruct (N.ltb_spec b0 128) as [Hascii | Hhigh].
  { rewrite !utf8_decode_ascii by done. rewrite IH by (simpl; lia).
    destruct (utf8_decode r0) as [s|e] eqn:Hdec; cbn [bind]; [| done].
    rewrite str_replace_nl_other; [done |].
    intros [-> Hs]. apply Hno. split; [done |]. by apply (utf8_decode_head_110 r0 s). }
  clear Hno. cbn [utf8_decode]. rewrite (proj2 (N.ltb_ge b0 128)) by done.
  destruct (in_range 194 223 b0) eqn:H2.
  { destruct r0 as [|b1 r1]; [done |].
    destruct (in_range 128 191 b1) eqn:Hb1.
    - rewrite str_replace_nl_above_ascii by (range_facts; lia).
      cbv iota. rewrite ?Hb1, IH by (simpl; lia).
      destruct (utf8_decode r1); cbn [bind]; [| done].
      by rewrite str_replace_nl_above_ascii by above_ascii.
    - destruct (str_replace_nl_ascii_head 128 191 b1 r1) as (c & t & -> & Hc); [lia | done |].
      cbv iota. by rewrite ?Hc. }
  destruct (in_range 224 239 b0) eqn:H3.
  { destruct r0 as [|b1 r1]; [done |].
    set (lo := if (b0 =? 224)%N then 160%N else 128%N).
    set (hi := if (b0 =? 237)%N then 159%N else 191%N).
    assert (128 <= lo)%N as Hlo by (subst lo; destruct (b0 =? 224)%N; lia).
    destruct (in_range lo hi b1) eqn:Hb1.
    - rewrite str_replace_nl_above_ascii by (range_facts; lia).
      destruct r1 as [|b2 r2]; [done |].
      destruct (in_range 128 191 b2) eqn:Hb2.
      + rewrite str_replace_nl_above_ascii by (range_facts; lia).
        cbv iota. rewrite ?Hb1, ?Hb2, IH by (simpl; lia). cbn [andb].
        destruct (utf8_decode r2); cbn [bind]; [| done].
        rewrite str_replace_nl_above_ascii; [done |].
        subst lo hi. split_eqb; above_ascii.
      + destruct (str_replace_nl_ascii_head 128 191 b2 r2) as (c & t & -> & Hc);
          [lia | done |].
        cbv iota. by rewrite ?Hb1, ?Hb2, ?Hc.
    - destruct (str_replace_nl_ascii_head lo hi b1 r1) as (c & t & -> & Hc); [done | done |].
      destruct t as [|c2 t], r1 as [|b2 r2]; cbv iota; by rewrite ?Hb1, ?Hc. }
  destruct (in_range 240 244 b0) eqn:H4; [| done].
  destruct r0 as [|b1 r1]; [done |].
  set (lo := if (b0 =? 240)%N then 144%N else 128%N).
  set (hi := if (b0 =? 244)%N then 143%N else 191%N).
  assert (128 <= lo)%N as Hlo by (subst lo; destruct (b0 =? 240)%N; lia).
  destruct (in_range lo hi b1) eqn:Hb1.
  - rewrite str_replace_nl_above_ascii by (range_facts; lia).
    destruct r1 as [|b2 r2]; [done |].
    destruct (in_range 128 191 b2) eqn:Hb2.
    + rewrite str_replace_nl_above_ascii by (range_facts; lia).
      destruct r2 as [|b3 r3]; [done |].
      destruct (in_range 128 191 b3) eqn:Hb3.
      * rewrite str_replace_nl_above_ascii by (range_facts; lia).
        cbv iota. rewrite ?Hb1, ?Hb2, ?Hb3, IH by (simpl; lia). cbn [andb].
        destruct (utf8_decode r3); cbn [bind]; [| done].
        rewrite str_replace_nl_above_ascii; [done |].
        subst lo hi. split_eqb; above_ascii.
      * destruct (str_replace_nl_ascii_head 128 191 b3 r3) as (c & t & -> & Hc);
          [lia | done |].
        cbv iota. by rewrite ?Hb1, ?Hb2, ?Hb3, ?Hc.
    + destruct (str_replace_nl_ascii_head 128 191 b2 r2) as (c & t & -> & Hc);
        [lia | done |].
      destruct t as [|c2 t], r2 as [|b3 r3]; cbv iota; by rewrite ?Hb1, ?Hb2, ?Hc.
  - destruct (str_replace_nl_ascii_head lo hi b1 r1) as (c & t & -> & Hc); [done | done |].
    destruct t as [|c2 [|c3 t]], r1 as [|b2 [|b3 r3]]; cbv iota; by rewrite ?Hb1, ?Hc.
Qed.

Lemma utf8_decode_all_ascii (bs : list N) :
  Forall (fun b => (b < 128)%N) bs -> utf8_decode bs = Ok bs.
Proof.
  induction 1 as [|b bs Hb _ IH]; [done |].
  by rewrite utf8_decode_ascii, IH.
Qed.

Lemma str_replace_nl_no_backslash (s : str) :
  92%N ∉ s -> str_replace s ESCAPED_NEWLINE NL = s.
Proof.
  induction s as [|b s IH]; intros Hs; [done |].
  apply not_elem_of_cons in Hs as [Hb Hs].
  rewrite str_replace_nl_other, IH; [done | done |]. by intros [? _].
Qed.

Lemma convert_to_newlines_values (text : bytes) :
  convert_to_newlines text
  = utf8_decode (str_replace (map Byte.to_N text) ESCAPED_NEWLINE NL).
Proof. unfold convert_to_newlines, bytes_decode. by rewrite bytes_replace_values. Qed.

(** X14: [convert_to_newlines] gives the decoded text with every backslash
    followed by n replaced by a newline: replacing in the bytes and then
    decoding is decoding and then replacing.  It raises exactly when the
    bytes are not valid UTF-8, and then [UnicodeDecodeError]. *)
Theorem convert_to_newlines_decodes_then_replaces (text : bytes) :
  convert_to_newlines text
  = (let* s := bytes_decode text in Ok (str_replace s ESCAPED_NEWLINE NL))
  /\ (returns (convert_to_newlines text) <-> returns (bytes_decode text))
  /\ (forall e, convert_to_newlines text = Raise e -> e = UnicodeDecodeError).
Proof.
  rewrite convert_to_newlines_values, utf8_decode_replace. fold (bytes_decode text).
  destruct (bytes_decode text) as [s|e] eqn:Hdec; cbn [bind].
  - split; [done |]. split; [| done]. split; intros _; apply returns_Ok.
  - split; [done |]. split; [done |].
    intros e' [= <-]. by apply utf8_decode_raises in Hdec.
Qed.

(** X15: the text [convert_to_newlines] returns holds no backslash followed
    by n any more. *)
Theorem convert_to_newlines_leaves_no_escape (text : bytes) (s : str) :
  convert_to_newlines text = Ok s -> ~ contains s ESCAPED_NEWLINE.
Proof.
  rewrite convert_to_newlines_values, utf8_decode_replace.
  intros (s0 & _ & [= <-])%bind_Ok_inv (before & after & Hs).
  by apply str_replace_nl_clean in Hs.
Qed.

(** X16: on ASCII bytes [convert_to_newlines] never raises: the result is
    the same characters with the escaped newlines replaced. *)
Theorem convert_to_newlines_ascii (text : bytes) :
  Forall (fun b => (Byte.to_N b < 128)%N) text ->
  convert_to_newlines text = Ok (str_replace (map Byte.to_N text) ESCAPED_NEWLINE NL).
Proof.
  intros Hascii. rewrite convert_to_newlines_values, utf8_decode_replace.
  rewrite utf8_decode_all_ascii; [done |]. by apply Forall_fmap.
Qed.

(** X17: bytes without a backslash are only decoded. *)
Theorem convert_to_newlines_no_backslash (text : bytes) :
  x5c ∉ text -> convert_to_newlines text = bytes_decode text.
Proof.
  intros Hno. rewrite convert_to_newlines_values, str_replace_nl_no_backslash; [done |].
  intros (b & Hb & Hin)%list_elem_of_fmap. apply Hno.
  by rewrite (byte_to_N_inj x5c b).
Qed.

Lemma convert_to_newlines_leaves_no_escape_witness :
  ~ contains (lit "line1" ++ NL ++ lit "line2" ++ NL) ESCAPED_NEWLINE.
Proof.
  apply (convert_to_newlines_leaves_no_escape (blit "line1\nline2\n")).
  vm_compute; reflexivity.
Defined.

Lemma convert_to_newlines_ascii_witness :
  convert_to_newlines (blit "first\nsecond")
  = Ok (str_replace (map Byte.to_N (blit "first\nsecond")) ESCAPED_NEWLINE NL).
Proof.
  apply convert_to_newlines_ascii. by apply (bool_decide_unpack _).
Defined.

Lemma convert_to_newlines_no_backslash_witness :
  convert_to_newlines [x63; x61; x66; xc3; xa9] = bytes_decode [x63; x61; x66; xc3; xa9].
Proof.
  apply convert_to_newlines_no_backslash. by apply (bool_decide_unpack _).
Defined.

(** ** Witnesses of the renderer and the pipeline *)


Lemma job_record_shape_witness :
  decodable (Bytes (blit "Plan: 4 to add, 11 to change, 7 to destroy."))
  /\ ((Some 4, Some 11, Some 7) = (None, None, None)
      \/ exists x y z, (Some 4, Some 11, Some 7) = (Some x, Some y, Some z)).
Proof.
  apply (job_record_shape ascii_digits_only popen_plan
           (lit "prod/web_app") (lit "plan")
           {| success := false;
              stderr := Bytes (blit "warning");
              stdout := Bytes (blit "Plan: 4 to add, 11 to change, 7 to destroy.");
              add := Some 4; change := Some 11; destroy := Some 7 |}).
  vm_compute; reflexivity.
Defined.

